(** * EigenGate: a gate with a known eigendecomposition

    A shallow embedding of [cirq/ops/eigen_gate.py].

    Numbers.  The methods are written down twice.  In the first
    reading Python floats (and the Python ints that may stand in for
    them) are exact rationals [Q] with the numeric comparisons ([Qeq],
    never syntactic equality of fractions) and the integers of numpy
    are unbounded [Z]; it serves the statements in which no decision of
    the code hinges on rounding or on the width of an integer.  The
    only transcendental operation, the complex power [1j ** x] of
    [_unitary_], lands in pairs of real numbers [R].  In the second
    reading ([Binary64]) a float is an IEEE binary64 number with the
    rounding of each operation, and the integers of numpy are 64 bits
    wide; it serves the period and the canonical exponent where the two
    readings differ.

    Objects.  An instance is a record carrying its class ([type(self)]),
    its two constructor arguments and the memo field
    [_canonical_exponent_cached]; methods that write the memo field
    return the updated instance next to their result. *)

From Stdlib Require Import ZArith QArith Qround Qabs Qreals Qreduction.
From Stdlib Require Import List Bool String.
From Stdlib Require Import Reals Lia Psatz.
From Stdlib Require Import Floats.PrimFloat Floats.FloatOps Floats.SpecFloat Uint63.
Import ListNotations.

Local Open Scope Z_scope.
Local Open Scope Q_scope.

(** ** Python and numpy primitives used by the source *)

(** A value or Python's [NotImplemented] singleton. *)
Inductive OrNotImplemented (A : Type) : Type :=
| Value (a : A)
| NotImplemented.
Arguments Value {A} a.
Arguments NotImplemented {A}.

(** The integer nearest to a float, halves going to the even
    neighbour. *)
Definition round_half_even (x : Q) : Z :=
  let f := Qfloor x in
  match ((x - inject_Z f) ?= (1 # 2))%Q with
  | Lt => f
  | Gt => (f + 1)%Z
  | Eq => if Z.even f then f else (f + 1)%Z
  end.

(** [np.round] on a float: that integer, still as a float. *)
Definition np_round (x : Q) : Q := inject_Z (round_half_even x).

(** [int(x)] on a float: truncation towards zero. *)
Definition py_int (x : Q) : Z := Z.quot (Qnum x) (Zpos (Qden x)).

(** [x % p] with [p] an integer: the remainder takes the sign of the
    divisor, [x - p * floor(x / p)]. *)
Definition py_mod (x : Q) (p : Z) : Q :=
  x - inject_Z p * inject_Z (Qfloor (x / inject_Z p)).

(** [np.lcm.reduce] on a sequence with first element [p]: a left fold of
    the binary least common multiple. *)
Definition lcm_reduce (p : Z) (ps : list Z) : Z := fold_left Z.lcm ps p.

(** [min] and [max] of a Python list; the empty list raises
    [ValueError], rendered as [None]. *)
Definition py_min (l : list Q) : option Q :=
  match l with
  | [] => None
  | x :: xs => Some (fold_left (fun m y => if Qlt_le_dec y m then y else m) xs x)
  end.

Definition py_max (l : list Q) : option Q :=
  match l with
  | [] => None
  | x :: xs => Some (fold_left (fun m y => if Qlt_le_dec m y then y else m) xs x)
  end.

(** Complex numbers with real parts, the entries of a reconstructed
    matrix. *)
Definition Complex : Type := (R * R)%type.

Definition Cadd (a b : Complex) : Complex :=
  (fst a + fst b, snd a + snd b)%R.

Definition Cmul (a b : Complex) : Complex :=
  (fst a * fst b - snd a * snd b, fst a * snd b + snd a * fst b)%R.

(** [1j ** x] for a float [x]: the principal branch,
    exp(x * log(i)) = exp(i π x / 2). *)
Definition pow_1j (x : Q) : Complex :=
  (cos (PI / 2 * Q2R x), sin (PI / 2 * Q2R x))%R.

Fixpoint zip_with {A : Type} (f : A -> A -> A) (l1 l2 : list A) : list A :=
  match l1, l2 with
  | a :: l1', b :: l2' => f a b :: zip_with f l1' l2'
  | _, _ => []
  end.

(** ** Data model *)

(** A complex number with float parts, as stored in an [np.ndarray]. *)
Definition QComplex : Type := Q * Q.

(** A two-dimensional [np.ndarray], row by row. *)
Definition ndarray (A : Type) : Type := list (list A).

Definition C_of_QComplex (z : QComplex) : Complex := (Q2R (fst z), Q2R (snd z)).

(** [component * z]: every entry of the array times the scalar. *)
Definition ndarray_scale (m : ndarray QComplex) (z : Complex) : ndarray Complex :=
  map (map (fun x => Cmul (C_of_QComplex x) z)) m.

Definition ndarray_add (a b : ndarray Complex) : ndarray Complex :=
  zip_with (zip_with Cadd) a b.

(** [np.sum(arrays, axis=0)] on a list of arrays of one shape: their
    entrywise sum.  (On the empty list numpy answers the scalar 0.0,
    which has no rows; the projectors of one gate share one shape.) *)
Definition np_sum_axis0 (arrays : list (ndarray Complex)) : ndarray Complex :=
  match arrays with
  | [] => []
  | m :: rest => fold_left ndarray_add rest m
  end.

Record EigenComponent : Type := mkEigenComponent {
  (** The θ in λ = exp(i π θ). *)
  eigenvalue_exponent_factor : Q;
  (** The projection matrix onto the eigenspace of λ. *)
  eigenspace_projector : ndarray QComplex
}.

(** Modelled from the spec: [value.Symbol] is imported, not defined, by
    the source; it is an unresolved symbolic placeholder identified by
    its name. *)
Definition Symbol : Type := string.

(** [Union[value.Symbol, float]]. *)
Inductive Exponent : Type :=
| Concrete (e : Q)
| Symbolic (s : Symbol).

(** [isinstance(e, value.Symbol)]. *)
Definition is_Symbol (e : Exponent) : bool :=
  match e with Symbolic _ => true | Concrete _ => false end.

(** Python [==] between two exponents: numeric between floats, by name
    between symbols, [False] across the two. *)
Definition Exponent_eqb (a b : Exponent) : bool :=
  match a, b with
  | Concrete x, Concrete y => Qeq_bool x y
  | Symbolic s, Symbolic t => String.eqb s t
  | _, _ => false
  end.

(** The same comparison as a proposition. *)
Definition Exponent_eq (a b : Exponent) : Prop :=
  match a, b with
  | Concrete x, Concrete y => x == y
  | Symbolic s, Symbolic t => s = t
  | _, _ => False
  end.

(** The concrete subclasses of [EigenGate].  [T] is the set of class
    objects; each one supplies the abstract method [_eigen_components]
    and is placed in the inheritance order by [issubclass]. *)
Class GateTypes (T : Type) : Type := {
  type_eqb : T -> T -> bool;
  type_eqb_eq : forall a b, type_eqb a b = true <-> a = b;
  issubclass : T -> T -> bool;
  issubclass_refl : forall a, issubclass a a = true;
  _eigen_components : T -> list EigenComponent
}.

(** The multiplication protocol [protocols.mul(lhs, rhs, NotImplemented)]
    is imported by the source; all that is fixed here is that two floats
    multiply. *)
Class MulProtocol : Type := {
  protocols_mul : Exponent -> Exponent -> OrNotImplemented Exponent;
  protocols_mul_float : forall a b,
    protocols_mul (Concrete a) (Concrete b) = Value (Concrete (a * b))
}.

(** The built-in [hash] on the parts of an identity tuple.  The hash of
    a tuple is computed from the hashes of its items; numbers that
    compare equal hash alike. *)
Class HashProtocol (T : Type) : Type := {
  hash_type : T -> Z;
  hash_float : Q -> Z;
  hash_float_eq : forall x y : Q, x == y -> hash_float x = hash_float y;
  hash_Symbol : Symbol -> Z;
  hash_tuple : list Z -> Z
}.

Section EigenGate.

Context {T : Type} `{GT : GateTypes T} `{MP : MulProtocol}.

Record EigenGate : Type := mkEigenGate {
  type_of : T;
  _exponent : Exponent;
  _global_negate_rate : Q;
  _canonical_exponent_cached : option Exponent
}.

(** [type(self)(exponent=..., global_negate_rate=...)] running
    [EigenGate.__init__]. *)
Definition __init__ (cls : T) (exponent : Exponent) (global_negate_rate : Q)
  : EigenGate :=
  {| type_of := cls;
     _exponent := exponent;
     _global_negate_rate := global_negate_rate;
     _canonical_exponent_cached := None |}.

Definition _with_exponent (self : EigenGate) (exponent : Exponent) : EigenGate :=
  __init__ (type_of self) exponent (_global_negate_rate self).

(** The list [exponents] of [_period]. *)
Definition shifted_angles (self : EigenGate) : list Q :=
  map (fun c => eigenvalue_exponent_factor c + _global_negate_rate self)
      (_eigen_components (type_of self)).

(** The list [real_periods] of [_period]. *)
Definition real_periods (self : EigenGate) : list Q :=
  map (fun e => Qabs (2 / e))
      (filter (fun e => negb (Qeq_bool e 0)) (shifted_angles self)).

(** [None] is Python's [None]; [Some 0] is the early [return 0].  The
    list handed to [np.lcm.reduce] is [int_periods], which has a first
    element on the path that reaches it. *)
Definition _period (self : EigenGate) : option Z :=
  match real_periods self with
  | [] => Some 0%Z
  | r :: rs =>
      let int_periods := map (fun e => py_int (np_round e)) (r :: rs) in
      if existsb (fun ir => negb (Qeq_bool (fst ir) (inject_Z (snd ir))))
                 (combine (r :: rs) int_periods)
      then None
      else Some (lcm_reduce (py_int (np_round r))
                            (map (fun e => py_int (np_round e)) rs))
  end.

(** [not period]: true on [None] and on [0]. *)
Definition not_period (period : option Z) : bool :=
  match period with
  | None => true
  | Some p => Z.eqb p 0
  end.

(** The value the property computes when the memo field is empty. *)
Definition compute_canonical_exponent (self : EigenGate) : Exponent :=
  let period := _period self in
  if not_period period || is_Symbol (_exponent self)
  then _exponent self
  else match period, _exponent self with
       | Some p, Concrete e => Concrete (py_mod e p)
       | _, e => e
       end.

Definition set_cache (self : EigenGate) (c : Exponent) : EigenGate :=
  {| type_of := type_of self;
     _exponent := _exponent self;
     _global_negate_rate := _global_negate_rate self;
     _canonical_exponent_cached := Some c |}.

(** The property [_canonical_exponent]: the value and the instance with
    its memo field filled. *)
Definition _canonical_exponent (self : EigenGate) : Exponent * EigenGate :=
  match _canonical_exponent_cached self with
  | None =>
      let c := compute_canonical_exponent self in
      (c, set_cache self c)
  | Some c => (c, self)
  end.

Definition _identity_tuple (self : EigenGate) : (T * Exponent * Q) * EigenGate :=
  let (c, self') := _canonical_exponent self in
  ((type_of self, c, _global_negate_rate self), self').

(** Python [==] on two identity tuples: componentwise. *)
Definition tuple_eqb (a b : T * Exponent * Q) : bool :=
  match a, b with
  | (ta, ea, ra), (tb, eb, rb) =>
      type_eqb ta tb && Exponent_eqb ea eb && Qeq_bool ra rb
  end.

Definition isinstance (other : EigenGate) (cls : T) : bool :=
  issubclass (type_of other) cls.

(** [__eq__]: the answer, then [self] and [other] as the call leaves
    them. *)
Definition __eq__ (self other : EigenGate)
  : OrNotImplemented bool * EigenGate * EigenGate :=
  if negb (isinstance other (type_of self))
  then (NotImplemented, self, other)
  else
    let (t1, self') := _identity_tuple self in
    let (t2, other') := _identity_tuple other in
    (Value (tuple_eqb t1 t2), self', other').

Definition __pow__ (self : EigenGate) (exponent : Exponent)
  : OrNotImplemented EigenGate :=
  match protocols_mul (_exponent self) exponent with
  | NotImplemented => NotImplemented
  | Value new_exponent => Value (_with_exponent self new_exponent)
  end.

Definition _is_parameterized_ (self : EigenGate) : bool :=
  is_Symbol (_exponent self).

Definition _has_unitary_ (self : EigenGate) : bool :=
  negb (_is_parameterized_ self).

(** [min]/[max] of an empty angle list raise; that is [None] here. *)
Definition _trace_distance_bound_ (self : EigenGate) : option Q :=
  if is_Symbol (_exponent self) then Some 1
  else
    let angles := map eigenvalue_exponent_factor
                      (_eigen_components (type_of self)) in
    match py_min angles, py_max angles, _exponent self with
    | Some min_angle, Some max_angle, Concrete e =>
        Some (Qabs ((max_angle - min_angle) * e * (7 # 2)))
    | _, _, _ => None
    end.

Definition _unitary_ (self : EigenGate) : OrNotImplemented (ndarray Complex) :=
  if _is_parameterized_ self then NotImplemented
  else
    match _exponent self with
    | Symbolic _ => NotImplemented
    | Concrete e =>
        Value (np_sum_axis0
                 (map (fun c =>
                         ndarray_scale
                           (eigenspace_projector c)
                           (pow_1j (2 * e * (eigenvalue_exponent_factor c
                                             + _global_negate_rate self))))
                      (_eigen_components (type_of self))))
    end.

(** [v == w] between two gates, as the interpreter dispatches it: the
    reflected [__eq__] goes first when the class of [w] is a strict
    subclass of the class of [v]; [NotImplemented] from one side hands
    over to the other; [NotImplemented] from both sides leaves the
    identity test [v is w], which is false here since an instance
    passes the [isinstance] test of its own class. *)
Definition richcompare_eq (v w : EigenGate) : bool * EigenGate * EigenGate :=
  if negb (type_eqb (type_of v) (type_of w)) && issubclass (type_of w) (type_of v)
  then
    match __eq__ w v with
    | (Value b, w1, v1) => (b, v1, w1)
    | (NotImplemented, w1, v1) =>
        match __eq__ v1 w1 with
        | (Value b, v2, w2) => (b, v2, w2)
        | (NotImplemented, v2, w2) => (false, v2, w2)
        end
    end
  else
    match __eq__ v w with
    | (Value b, v1, w1) => (b, v1, w1)
    | (NotImplemented, v1, w1) =>
        match __eq__ w1 v1 with
        | (Value b, w2, v2) => (b, v2, w2)
        | (NotImplemented, w2, v2) => (false, v2, w2)
        end
    end.

(** [__ne__]: [not self == other]. *)
Definition __ne__ (self other : EigenGate) : bool * EigenGate * EigenGate :=
  match richcompare_eq self other with
  | (b, self', other') => (negb b, self', other')
  end.

Context `{HP : HashProtocol T}.

(** [hash] of a float or of a symbol. *)
Definition hash_Exponent (e : Exponent) : Z :=
  match e with
  | Concrete x => hash_float x
  | Symbolic s => hash_Symbol s
  end.

(** [__hash__]: the hash of the identity tuple, and the instance with
    its memo field filled. *)
Definition __hash__ (self : EigenGate) : Z * EigenGate :=
  match _identity_tuple self with
  | ((t, c, r), self') =>
      (hash_tuple [hash_type t; hash_Exponent c; hash_float r], self')
  end.

(** [_resolve_parameters_]; [value_of] is the method of that name of the
    resolver handed in. *)
Definition _resolve_parameters_ (self : EigenGate)
    (value_of : Exponent -> Exponent) : EigenGate :=
  _with_exponent self (value_of (_exponent self)).

End EigenGate.

Arguments EigenGate T : clear implicits.

(** ** Vocabulary of the statements *)

(** [m] is the least common multiple of the integers of [l]. *)
Definition is_lcm_of (l : list Z) (m : Z) : Prop :=
  (0 < m)%Z
  /\ Forall (fun x => (x | m)%Z) l
  /\ forall k : Z, Forall (fun x => (x | k)%Z) l -> (m | k)%Z.

(** [m] is a least (a greatest) element of [l]. *)
Definition is_min_of (l : list Q) (m : Q) : Prop :=
  In m l /\ forall x, In x l -> m <= x.

Definition is_max_of (l : list Q) (m : Q) : Prop :=
  In m l /\ forall x, In x l -> x <= m.

(** The memo field is empty or holds what the property would compute:
    the states an instance goes through after [__init__]. *)
Definition cache_valid {T : Type} `{GateTypes T} (self : EigenGate T) : Prop :=
  match _canonical_exponent_cached self with
  | None => True
  | Some c => c = compute_canonical_exponent self
  end.

(** The answer of [__eq__], without the two instances. *)
Definition eq_answer {T : Type} `{GateTypes T} (self other : EigenGate T)
  : OrNotImplemented bool :=
  fst (fst (__eq__ self other)).

(** The value of the property [_canonical_exponent]. *)
Definition canonical_exponent_of {T : Type} `{GateTypes T} (self : EigenGate T)
  : Exponent :=
  fst (_canonical_exponent self).

(** The matrix [_unitary_] builds for the class [cls], the shift [s]
    and the float exponent [e]. *)
Definition reconstructed {T : Type} `{GateTypes T} (cls : T) (s e : Q)
  : ndarray Complex :=
  np_sum_axis0
    (map (fun c => ndarray_scale (eigenspace_projector c)
                     (pow_1j (2 * e * (eigenvalue_exponent_factor c + s))))
         (_eigen_components cls)).


(** A float array read as a complex array with real parts. *)
Definition embed (m : ndarray QComplex) : ndarray Complex :=
  map (map C_of_QComplex) m.

(** An array of [n] rows of [m] entries each. *)
Definition has_shape {A : Type} (n m : nat) (a : ndarray A) : Prop :=
  List.length a = n /\ Forall (fun row => List.length row = m) a.

(** The answers of [__ne__] and of [__hash__], without the instances. *)
Definition ne_answer {T : Type} `{GateTypes T} (self other : EigenGate T) : bool :=
  fst (fst (__ne__ self other)).

Definition hash_answer {T : Type} `{GateTypes T} `{HashProtocol T}
    (self : EigenGate T) : Z :=
  fst (__hash__ self).

(** ** Concrete gate classes

    The decompositions quoted in the docstring of [_eigen_components],
    and a few more used to exercise the definitions. *)
Module Gates.

Definition real (x : Q) : QComplex := (x, 0).

Definition projector_0 : ndarray QComplex := [[real 1; real 0]; [real 0; real 0]].
Definition projector_1 : ndarray QComplex := [[real 0; real 0]; [real 0; real 1]].
Definition eye2 : ndarray QComplex := [[real 1; real 0]; [real 0; real 1]].

Inductive GateClass : Type :=
| ZGate          (* Pauli Z: angles 0 and 1 *)
| SubZGate       (* class SubZGate(ZGate) with nothing overridden *)
| RzLike         (* angles -0.5 and +0.5 *)
| ScalarGate     (* one eigenspace, angle 0 *)
| SkewGate.      (* angles 0 and 0.3 *)

Definition GateClass_eqb (a b : GateClass) : bool :=
  match a, b with
  | ZGate, ZGate | SubZGate, SubZGate | RzLike, RzLike
  | ScalarGate, ScalarGate | SkewGate, SkewGate => true
  | _, _ => false
  end.

Definition GateClass_issubclass (a b : GateClass) : bool :=
  match a, b with
  | SubZGate, ZGate => true
  | _, _ => GateClass_eqb a b
  end.

Definition GateClass_components (c : GateClass) : list EigenComponent :=
  match c with
  | ZGate | SubZGate => [mkEigenComponent 0 projector_0; mkEigenComponent 1 projector_1]
  | RzLike => [mkEigenComponent (- (1 # 2)) projector_0; mkEigenComponent (1 # 2) projector_1]
  | ScalarGate => [mkEigenComponent 0 eye2]
  | SkewGate => [mkEigenComponent 0 projector_0; mkEigenComponent (3 # 10) projector_1]
  end.

#[export] Instance GateClass_types : GateTypes GateClass := {|
  type_eqb := GateClass_eqb;
  type_eqb_eq := ltac:(intros [] []; simpl; split; congruence);
  issubclass := GateClass_issubclass;
  issubclass_refl := ltac:(intros []; reflexivity);
  _eigen_components := GateClass_components
|}.

(** Floats multiply; a symbol takes part in no product. *)
Definition float_mul (a b : Exponent) : OrNotImplemented Exponent :=
  match a, b with
  | Concrete x, Concrete y => Value (Concrete (x * y))
  | _, _ => NotImplemented
  end.

#[export] Instance float_mul_protocol : MulProtocol := {|
  protocols_mul := float_mul;
  protocols_mul_float := fun a b => eq_refl
|}.

(** A hash in the manner of the interpreter's: by the reduced fraction
    for floats, by length for names, positional for tuples. *)
#[export] Instance GateClass_hash : HashProtocol GateClass := {|
  hash_type := fun c =>
    match c with
    | ZGate => 1 | SubZGate => 2 | RzLike => 3 | ScalarGate => 4 | SkewGate => 5
    end%Z;
  hash_float := fun x => (Qnum (Qred x) * 31 + Zpos (Qden (Qred x)))%Z;
  hash_float_eq := fun x y E => f_equal (fun q => (Qnum q * 31 + Zpos (Qden q))%Z)
                                         (Qred_complete x y E);
  hash_Symbol := fun s => Z.of_nat (String.length s);
  hash_tuple := fun items => fold_left (fun h x => (h * 1000003 + x)%Z) items 0%Z
|}.

(** [cls(exponent=e)], with the default [global_negate_rate=0.0]. *)
Definition gate (cls : GateClass) (e : Q) : EigenGate GateClass :=
  __init__ cls (Concrete e) 0.

(** [cls(exponent=cirq.Symbol(s))]. *)
Definition symbolic_gate (cls : GateClass) (s : Symbol) : EigenGate GateClass :=
  __init__ cls (Symbolic s) 0.

End Gates.

(** ** The same methods in machine arithmetic

    Here a float is an IEEE binary64 number with its rounding, and the
    integers of numpy are 64 bits wide.  The class hierarchy and the
    eigen-components are those of [GateTypes]; a rational angle stands
    for the double nearest to it, as a decimal literal does. *)
Module Binary64.

Inductive Exception : Type := OverflowError | ValueError.

(** What a call does: it returns, it raises, or it leaves the part that
    is written out here ([BeyondInt64]: numpy would not hold the
    integers in an int64 array). *)
Inductive Outcome (A : Type) : Type :=
| Returns (a : A)
| Raises (exc : Exception)
| BeyondInt64.
Arguments Returns {A} a.
Arguments Raises {A} exc.
Arguments BeyondInt64 {A}.

(** An int64 as a double (the conversion of C, to nearest). *)
Definition of_int64 (z : Z) : float :=
  match z with
  | Z0 => PrimFloat.zero
  | Zpos p =>
      if (z <? 2 ^ 63)%Z then PrimFloat.of_uint63 (Uint63.of_Z z)
      else Z.ldexp PrimFloat.one 63
  | Zneg p =>
      if (Zpos p <? 2 ^ 63)%Z
      then PrimFloat.opp (PrimFloat.of_uint63 (Uint63.of_Z (Zpos p)))
      else PrimFloat.opp (Z.ldexp PrimFloat.one 63)
  end.

(** [p = o * 2 ^ k] with [o] odd. *)
Fixpoint odd_part (p : positive) : positive * Z :=
  match p with
  | xO p' => let (o, k) := odd_part p' in (o, (k + 1)%Z)
  | _ => (p, 0%Z)
  end.

(** The double a fraction stands for: itself when it is a double, the
    nearest one when numerator and denominator have odd parts below
    2^53. *)
Definition float_of_Q (q : Q) : float :=
  let (od, kd) := odd_part (Qden q) in
  let magnitude (n : positive) : float :=
    let (on, kn) := odd_part n in
    match od with
    | xH => Z.ldexp (of_int64 (Zpos on)) (kn - kd)
    | _ => PrimFloat.div (Z.ldexp (of_int64 (Zpos on)) kn)
                         (Z.ldexp (of_int64 (Zpos od)) kd)
    end in
  match Qnum q with
  | Z0 => PrimFloat.zero
  | Zpos n => magnitude n
  | Zneg n => PrimFloat.opp (magnitude n)
  end.

(** The exact value of a finite double. *)
Definition Q_of_float (f : float) : option Q :=
  match Prim2SF f with
  | S754_zero _ => Some 0
  | S754_finite s m e =>
      let n := if s then Zneg m else Zpos m in
      Some (Qred (if (0 <=? e)%Z then inject_Z (n * 2 ^ e)
                  else n # Z.to_pos (2 ^ (- e))))
  | _ => None
  end.

Definition two52 : float := Eval compute in Z.ldexp PrimFloat.one 52.

(** [np.round] on a double ([rint], to nearest, halves to even); the
    sign of a zero result aside. *)
Definition rint (x : float) : float :=
  if PrimFloat.ltb (PrimFloat.abs x) two52
  then
    let r := PrimFloat.sub (PrimFloat.add (PrimFloat.abs x) two52) two52 in
    if PrimFloat.ltb x PrimFloat.zero then PrimFloat.opp r else r
  else x.

(** [int(x)] on a double. *)
Definition py_int (x : float) : Outcome Z :=
  match Prim2SF x with
  | S754_nan => Raises ValueError
  | S754_infinity _ => Raises OverflowError
  | S754_zero _ => Returns 0%Z
  | S754_finite s m e =>
      let v := if (0 <=? e)%Z then (Zpos m * 2 ^ e)%Z
               else Z.shiftr (Zpos m) (- e) in
      Returns (if s then (- v)%Z else v)
  end.

(** [i == r] between a double and a Python int: exact. *)
Definition float_eq_int (i : float) (r : Z) : bool :=
  match Q_of_float i with
  | Some q => Qeq_bool q (inject_Z r)
  | None => false
  end.

(** [int(np.round(e))] over a list, left to right. *)
Fixpoint int_periods (real_periods : list float) : Outcome (list Z) :=
  match real_periods with
  | [] => Returns []
  | e :: rest =>
      match py_int (rint e) with
      | Returns z =>
          match int_periods rest with
          | Returns zs => Returns (z :: zs)
          | other => other
          end
      | Raises exc => Raises exc
      | BeyondInt64 => BeyondInt64
      end
  end.

(** A 64-bit pattern read as a signed integer. *)
Definition wrap_int64 (z : Z) : Z := ((z + 2 ^ 63) mod 2 ^ 64 - 2 ^ 63)%Z.

(** [np.lcm] on two int64: the unsigned [a / gcd * b] of the absolute
    values, in 64 bits, read back as signed. *)
Definition np_lcm (a b : Z) : Z :=
  let ua := Z.abs a in
  let ub := Z.abs b in
  let g := Z.gcd ua ub in
  if (g =? 0)%Z then 0%Z else wrap_int64 ((ua / g * ub) mod 2 ^ 64).

Definition in_int64 (z : Z) : bool := ((- 2 ^ 63 <=? z) && (z <? 2 ^ 63))%Z.

(** [np.lcm.reduce] on a list with first element [p], all of it within
    int64. *)
Definition np_lcm_reduce (p : Z) (ps : list Z) : Outcome Z :=
  if forallb in_int64 (p :: ps) then Returns (fold_left np_lcm ps p)
  else BeyondInt64.

(** C's [fmod]: the exact remainder, with the sign of [a]. *)
Definition fmod (a b : float) : float :=
  match Prim2SF a, Prim2SF b with
  | S754_finite sa ma ea, S754_finite _ mb eb =>
      let e0 := Z.min ea eb in
      match ((Zpos ma * 2 ^ (ea - e0)) mod (Zpos mb * 2 ^ (eb - e0)))%Z with
      | Zpos r => SF2Prim (S754_finite sa r e0)
      | _ => if sa then PrimFloat.neg_zero else PrimFloat.zero
      end
  | S754_zero _, S754_finite _ _ _ => a
  | S754_zero _, S754_infinity _ => a
  | S754_finite _ _ _, S754_infinity _ => a
  | _, _ => PrimFloat.nan
  end.

(** [x % p] for a double [x] and an int64 [p] that is not 0: numpy turns
    [p] into a double, takes [fmod] and moves a remainder of the wrong
    sign by [p], in floating point. *)
Definition py_mod (x : float) (p : Z) : float :=
  let b := of_int64 p in
  let m := fmod x b in
  if PrimFloat.eqb m PrimFloat.zero
  then (if PrimFloat.ltb b PrimFloat.zero then PrimFloat.neg_zero else PrimFloat.zero)
  else if xorb (PrimFloat.ltb b PrimFloat.zero) (PrimFloat.ltb m PrimFloat.zero)
       then PrimFloat.add m b
       else m.

Inductive Exponent : Type :=
| Concrete (e : float)
| Symbolic (s : Symbol).

Definition is_Symbol (e : Exponent) : bool :=
  match e with Symbolic _ => true | Concrete _ => false end.

(** Python [==] between two exponents (two doubles that are not NaN). *)
Definition Exponent_eqb (a b : Exponent) : bool :=
  match a, b with
  | Concrete x, Concrete y => PrimFloat.eqb x y
  | Symbolic s, Symbolic t => String.eqb s t
  | _, _ => false
  end.

Section EigenGate.

Context {T : Type} `{GT : GateTypes T}.

Record EigenGate : Type := mkEigenGate {
  type_of : T;
  _exponent : Exponent;
  _global_negate_rate : float;
  _canonical_exponent_cached : option Exponent
}.

Definition __init__ (cls : T) (exponent : Exponent) (global_negate_rate : float)
  : EigenGate :=
  {| type_of := cls;
     _exponent := exponent;
     _global_negate_rate := global_negate_rate;
     _canonical_exponent_cached := None |}.

(** The list [exponents] of [_period]. *)
Definition shifted_angles (self : EigenGate) : list float :=
  map (fun c => PrimFloat.add (float_of_Q (eigenvalue_exponent_factor c))
                              (_global_negate_rate self))
      (_eigen_components (type_of self)).

(** The list [real_periods] of [_period]. *)
Definition real_periods (self : EigenGate) : list float :=
  map (fun e => PrimFloat.abs (PrimFloat.div PrimFloat.two e))
      (filter (fun e => negb (PrimFloat.eqb e PrimFloat.zero))
              (shifted_angles self)).

Definition _period (self : EigenGate) : Outcome (option Z) :=
  match real_periods self with
  | [] => Returns (Some 0%Z)
  | r :: rs =>
      match int_periods (r :: rs) with
      | Returns [] => Returns (Some 0%Z)  (* no such case: one integer per candidate *)
      | Returns (p :: ps) =>
          if existsb (fun ir => negb (float_eq_int (fst ir) (snd ir)))
                     (combine (r :: rs) (p :: ps))
          then Returns None
          else match np_lcm_reduce p ps with
               | Returns period => Returns (Some period)
               | Raises exc => Raises exc
               | BeyondInt64 => BeyondInt64
               end
      | Raises exc => Raises exc
      | BeyondInt64 => BeyondInt64
      end
  end.

(** The value the property computes when the memo field is empty. *)
Definition compute_canonical_exponent (self : EigenGate) : Outcome Exponent :=
  match _period self with
  | Returns period =>
      Returns
        (if not_period period || is_Symbol (_exponent self)
         then _exponent self
         else match period, _exponent self with
              | Some p, Concrete e => Concrete (py_mod e p)
              | _, e => e
              end)
  | Raises exc => Raises exc
  | BeyondInt64 => BeyondInt64
  end.

Definition set_cache (self : EigenGate) (c : Exponent) : EigenGate :=
  {| type_of := type_of self;
     _exponent := _exponent self;
     _global_negate_rate := _global_negate_rate self;
     _canonical_exponent_cached := Some c |}.

Definition _canonical_exponent (self : EigenGate) : Outcome (Exponent * EigenGate) :=
  match _canonical_exponent_cached self with
  | None =>
      match compute_canonical_exponent self with
      | Returns c => Returns (c, set_cache self c)
      | Raises exc => Raises exc
      | BeyondInt64 => BeyondInt64
      end
  | Some c => Returns (c, self)
  end.

Definition _identity_tuple (self : EigenGate)
  : Outcome ((T * Exponent * float) * EigenGate) :=
  match _canonical_exponent self with
  | Returns (c, self') =>
      Returns ((type_of self, c, _global_negate_rate self), self')
  | Raises exc => Raises exc
  | BeyondInt64 => BeyondInt64
  end.

Definition tuple_eqb (a b : T * Exponent * float) : bool :=
  match a, b with
  | (ta, ea, ra), (tb, eb, rb) =>
      type_eqb ta tb && Exponent_eqb ea eb && PrimFloat.eqb ra rb
  end.

Definition __eq__ (self other : EigenGate)
  : Outcome (OrNotImplemented bool * EigenGate * EigenGate) :=
  if negb (issubclass (type_of other) (type_of self))
  then Returns (NotImplemented, self, other)
  else
    match _identity_tuple self with
    | Returns (t1, self') =>
        match _identity_tuple other with
        | Returns (t2, other') => Returns (Value (tuple_eqb t1 t2), self', other')
        | Raises exc => Raises exc
        | BeyondInt64 => BeyondInt64
        end
    | Raises exc => Raises exc
    | BeyondInt64 => BeyondInt64
    end.

(** The answers alone. *)
Definition canonical_exponent_of (self : EigenGate) : Outcome Exponent :=
  match _canonical_exponent self with
  | Returns (c, _) => Returns c
  | Raises exc => Raises exc
  | BeyondInt64 => BeyondInt64
  end.

Definition eq_answer (self other : EigenGate) : Outcome (OrNotImplemented bool) :=
  match __eq__ self other with
  | Returns (r, _, _) => Returns r
  | Raises exc => Raises exc
  | BeyondInt64 => BeyondInt64
  end.

(** [cls(exponent=e)] for the double [e] a fraction stands for, with
    the default [global_negate_rate=0.0]. *)
Definition gate (cls : T) (e : Q) : EigenGate :=
  __init__ cls (Concrete (float_of_Q e)) PrimFloat.zero.

End EigenGate.

Arguments EigenGate T : clear implicits.

End Binary64.

(** A class with the eigen-angles 2/4294967297 and 2/4294967299. *)
Module LongPeriods.

Inductive LongClass : Type := LongGate.

#[export] Instance LongClass_types : GateTypes LongClass := {|
  type_eqb := fun _ _ : LongClass => true;
  type_eqb_eq := ltac:(intros [] []; split; reflexivity);
  issubclass := fun _ _ : LongClass => true;
  issubclass_refl := ltac:(intros []; reflexivity);
  _eigen_components := fun _ =>
    [mkEigenComponent (2 # 4294967297) Gates.projector_0;
     mkEigenComponent (2 # 4294967299) Gates.projector_1]
|}.

End LongPeriods.


(** ** The period of the exponent *)
Section Period.

Context {T : Type} `{GT : GateTypes T}.

Implicit Types g h : EigenGate T.

Lemma _period_no_candidate g : real_periods g = [] -> _period g = Some 0%Z.
Proof. unfold _period. now intros ->. Qed.

(** [_period] reads the class and the shift of the instance, nothing
    else. *)
Lemma _period_depends g h :
  type_of g = type_of h ->
  _global_negate_rate g = _global_negate_rate h ->
  _period g = _period h.
Proof.
  intros Ht Hr. unfold _period, real_periods, shifted_angles.
  now rewrite Ht, Hr.
Qed.

Lemma _period_degenerate g :
  (forall a, In a (shifted_angles g) -> a == 0) -> _period g = Some 0%Z.
Proof.
  intros Hz. apply _period_no_candidate. unfold real_periods.
  induction (shifted_angles g) as [|a l IH]; [reflexivity|].
  simpl. assert (Ea : Qeq_bool a 0 = true) by (apply Qeq_bool_iff, Hz; now left).
  rewrite Ea. simpl. apply IH. intros b Hb. apply Hz. now right.
Qed.

End Period.

(** ** The canonical exponent and its memo field *)
Section Canonical.

Context {T : Type} `{GT : GateTypes T}.

Implicit Types g h : EigenGate T.

Lemma cache_valid_init (cls : T) (e : Exponent) (r : Q) :
  cache_valid (__init__ cls e r).
Proof. exact I. Qed.

Lemma compute_canonical_set_cache g (c : Exponent) :
  compute_canonical_exponent (set_cache g c) = compute_canonical_exponent g.
Proof. reflexivity. Qed.

(** Reading the property keeps the memo field right. *)
Lemma cache_valid_preserved g :
  cache_valid g -> cache_valid (snd (_canonical_exponent g)).
Proof.
  unfold cache_valid, _canonical_exponent.
  destruct (_canonical_exponent_cached g) as [c|] eqn:E; simpl.
  - now rewrite E.
  - reflexivity.
Qed.

(** With a right memo field the property answers what it would
    compute afresh. *)
Lemma canonical_exponent_computed g :
  cache_valid g -> canonical_exponent_of g = compute_canonical_exponent g.
Proof.
  unfold cache_valid, canonical_exponent_of, _canonical_exponent.
  now destruct (_canonical_exponent_cached g).
Qed.

Lemma canonical_unmodified g :
  not_period (_period g) = true \/ is_Symbol (_exponent g) = true ->
  compute_canonical_exponent g = _exponent g.
Proof.
  intros H. unfold compute_canonical_exponent.
  destruct H as [-> | ->]; [reflexivity | now rewrite orb_true_r].
Qed.

Lemma Exponent_eqb_eq (a b : Exponent) :
  Exponent_eqb a b = true <-> Exponent_eq a b.
Proof.
  destruct a as [x|s], b as [y|t]; simpl.
  - apply Qeq_bool_iff.
  - split; [discriminate | contradiction].
  - split; [discriminate | contradiction].
  - apply String.eqb_eq.
Qed.

Lemma Exponent_eq_refl (a : Exponent) : Exponent_eq a a.
Proof. destruct a; simpl; reflexivity. Qed.

Lemma tuple_eqb_true (ta tb : T) (ea eb : Exponent) (ra rb : Q) :
  tuple_eqb (ta, ea, ra) (tb, eb, rb) = true
  <-> ta = tb /\ Exponent_eq ea eb /\ ra == rb.
Proof.
  unfold tuple_eqb.
  rewrite !andb_true_iff, type_eqb_eq, Exponent_eqb_eq, Qeq_bool_iff.
  tauto.
Qed.

Lemma eq_answer_unfold g h :
  eq_answer g h =
  if negb (isinstance h (type_of g)) then NotImplemented
  else Value (tuple_eqb
                (type_of g, canonical_exponent_of g, _global_negate_rate g)
                (type_of h, canonical_exponent_of h, _global_negate_rate h)).
Proof.
  unfold eq_answer, __eq__, _identity_tuple, canonical_exponent_of.
  destruct (negb (isinstance h (type_of g))); [reflexivity|].
  destruct (_canonical_exponent g), (_canonical_exponent h). reflexivity.
Qed.

(** [__eq__] leaves both memo fields right. *)
Lemma cache_valid_eq g h :
  cache_valid g -> cache_valid h ->
  cache_valid (snd (fst (__eq__ g h))) /\ cache_valid (snd (__eq__ g h)).
Proof.
  intros Vg Vh. unfold __eq__, _identity_tuple.
  destruct (negb (isinstance h (type_of g))); [now split|].
  pose proof (cache_valid_preserved g Vg) as Pg.
  pose proof (cache_valid_preserved h Vh) as Ph.
  destruct (_canonical_exponent g), (_canonical_exponent h). now split.
Qed.

(** C10.  When the right operand is an instance of a strict subclass
    of the left operand's type, [__eq__] answers [False], not
    [NotImplemented]; [NotImplemented] is the answer exactly when the
    right operand is not an instance of the left operand's type. *)
Theorem eq_strict_subclass_is_False g h :
  (issubclass (type_of h) (type_of g) = true ->
   type_of h <> type_of g ->
   eq_answer g h = Value false)
  /\ (eq_answer g h = NotImplemented <-> isinstance h (type_of g) = false).
Proof.
  rewrite eq_answer_unfold. unfold isinstance. split.
  - intros Hsub Hne. rewrite Hsub. simpl. f_equal.
    destruct (type_eqb (type_of g) (type_of h)) eqn:E; [|reflexivity].
    apply type_eqb_eq in E. congruence.
  - destruct (issubclass (type_of h) (type_of g)); simpl; split;
      congruence.
Qed.

(** C2, amended.  [__eq__] answers [True] exactly for two operators of
    the same concrete subtype with equal canonical exponents and equal
    global phase-shift rates; it answers [NotImplemented] whenever the
    right operand is not an instance of the left operand's type, and a
    boolean otherwise, [False] for an instance of a strict subclass. *)
Theorem eq_identity_tuple g h :
  (eq_answer g h = Value true <->
     type_of g = type_of h
     /\ Exponent_eq (canonical_exponent_of g) (canonical_exponent_of h)
     /\ _global_negate_rate g == _global_negate_rate h)
  /\ (isinstance h (type_of g) = false -> eq_answer g h = NotImplemented)
  /\ (isinstance h (type_of g) = true ->
      exists b, eq_answer g h = Value b
        /\ (type_of h <> type_of g -> b = false)).
Proof.
  rewrite eq_answer_unfold. split; [|split].
  - destruct (isinstance h (type_of g)) eqn:I; simpl.
    + rewrite <- tuple_eqb_true. unfold tuple_eqb. split; congruence.
    + split; [discriminate|]. intros [Ht _].
      unfold isinstance in I. rewrite Ht, issubclass_refl in I. discriminate.
  - now intros ->.
  - intros ->. simpl. eexists. split; [reflexivity|].
    intros Hne. apply andb_false_intro1, andb_false_intro1.
    destruct (type_eqb (type_of g) (type_of h)) eqn:E; [|reflexivity].
    apply type_eqb_eq in E. congruence.
Qed.

End Canonical.

(** ** Canonicalization and equality *)
Section Canonicalization.

Context {T : Type} `{GT : GateTypes T}.

Implicit Types g h : EigenGate T.

Lemma shifted_angles_rate g h :
  type_of h = type_of g ->
  _global_negate_rate h == _global_negate_rate g ->
  (forall a, In a (shifted_angles g) -> a == 0) ->
  forall a, In a (shifted_angles h) -> a == 0.
Proof.
  intros Ht Hr Hz a Hin. unfold shifted_angles in *.
  apply in_map_iff in Hin. destruct Hin as [comp [<- Hcomp]].
  rewrite Hr. apply Hz. apply in_map_iff.
  exists comp. split; [reflexivity | now rewrite <- Ht].
Qed.

Lemma canonical_degenerate g :
  cache_valid g ->
  (forall a, In a (shifted_angles g) -> a == 0) ->
  canonical_exponent_of g = _exponent g.
Proof.
  intros Vg Hz. rewrite (canonical_exponent_computed g Vg).
  apply canonical_unmodified. left. now rewrite (_period_degenerate g Hz).
Qed.

(** C4, amended.  When every shifted eigen-angle is zero the period is
    0 and the canonical exponent is the raw exponent unmodified; two
    such operators of one concrete subtype and one global phase-shift
    rate are equal exactly when their raw exponents are. *)
Theorem degenerate_period_keeps_exponent g h :
  cache_valid g -> cache_valid h ->
  (forall a, In a (shifted_angles g) -> a == 0) ->
  type_of h = type_of g ->
  _global_negate_rate h == _global_negate_rate g ->
  _period g = Some 0%Z
  /\ canonical_exponent_of g = _exponent g
  /\ canonical_exponent_of h = _exponent h
  /\ (eq_answer g h = Value true <-> Exponent_eq (_exponent g) (_exponent h)).
Proof.
  intros Vg Vh Hz Ht Hr.
  pose proof (shifted_angles_rate g h Ht Hr Hz) as Hzh.
  pose proof (canonical_degenerate g Vg Hz) as Cg.
  pose proof (canonical_degenerate h Vh Hzh) as Ch.
  split; [now apply _period_degenerate|]. split; [exact Cg|]. split; [exact Ch|].
  rewrite eq_answer_unfold, Cg, Ch. unfold isinstance.
  rewrite Ht, issubclass_refl. simpl. split.
  - intros E. injection E as E. apply tuple_eqb_true in E. tauto.
  - intros E. f_equal. apply tuple_eqb_true.
    split; [reflexivity | split; [exact E | now symmetry]].
Qed.

End Canonicalization.

(** ** Powers and the reconstructed matrix *)
Section Power.

Context {T : Type} `{GT : GateTypes T} `{MP : MulProtocol}.

Implicit Types g : EigenGate T.

Lemma pow_float g (e x : Q) :
  _exponent g = Concrete e ->
  __pow__ g (Concrete x) = Value (_with_exponent g (Concrete (e * x))).
Proof. intros He. unfold __pow__. now rewrite He, protocols_mul_float. Qed.

(** A power, when there is one, starts with an empty memo field. *)
Lemma cache_valid_pow g (m : Exponent) (g' : EigenGate T) :
  __pow__ g m = Value g' -> cache_valid g'.
Proof.
  unfold __pow__. destruct (protocols_mul (_exponent g) m); [|discriminate].
  intros E. injection E as <-. exact I.
Qed.

(** C5.  [G ** m] is a new instance of the subtype of [G] holding the
    product of the exponent of [G] and [m], with the global phase-shift
    rate of [G]; when the multiplication declines, so does the power. *)
Theorem pow_scales_exponent g (m : Exponent) :
  (forall p : Exponent,
     protocols_mul (_exponent g) m = Value p ->
     exists g', __pow__ g m = Value g'
       /\ type_of g' = type_of g
       /\ _exponent g' = p
       /\ _global_negate_rate g' = _global_negate_rate g
       /\ _canonical_exponent_cached g' = None)
  /\ (protocols_mul (_exponent g) m = NotImplemented ->
      __pow__ g m = NotImplemented)
  /\ (forall e x : Q,
        _exponent g = Concrete e -> m = Concrete x ->
        exists g', __pow__ g m = Value g' /\ _exponent g' = Concrete (e * x)).
Proof.
  split; [|split].
  - intros p Hp. unfold __pow__. rewrite Hp.
    eexists. split; [reflexivity|]. now repeat split.
  - intros Hn. unfold __pow__. now rewrite Hn.
  - intros e x He ->. rewrite (pow_float g e x He).
    eexists. split; reflexivity.
Qed.

Lemma pow_1j_comp (x y : Q) : x == y -> pow_1j x = pow_1j y.
Proof. intros E. unfold pow_1j. now rewrite (Qeq_eqR _ _ E). Qed.

Lemma pow_1j_0 (x : Q) : x == 0 -> pow_1j x = (1, 0)%R.
Proof.
  intros E. rewrite (pow_1j_comp _ _ E). unfold pow_1j.
  rewrite RMicromega.Q2R_0, Rmult_0_r, cos_0, sin_0. reflexivity.
Qed.

Lemma pow_1j_1 (x : Q) : x == 1 -> pow_1j x = (0, 1)%R.
Proof.
  intros E. rewrite (pow_1j_comp _ _ E). unfold pow_1j.
  rewrite RMicromega.Q2R_1, Rmult_1_r, cos_PI2, sin_PI2. reflexivity.
Qed.

Lemma pow_1j_2 (x : Q) : x == 2 -> pow_1j x = (-1, 0)%R.
Proof.
  intros E. rewrite (pow_1j_comp _ _ E). unfold pow_1j.
  replace (PI / 2 * Q2R 2)%R with PI by (unfold Q2R; simpl; field).
  rewrite cos_PI, sin_PI. reflexivity.
Qed.




(** C6.  The operator with components (0, [[1,0],[0,0]]) and
    (1, [[0,0],[0,1]]), exponent 1 and shift 0 has the matrix
    [[1,0],[0,-1]]; raised to the power 0.5 it has the matrix
    [[1,0],[0,i]]. *)
Theorem pauli_z_unitary (cls : T) :
  _eigen_components cls
  = [mkEigenComponent 0 Gates.projector_0; mkEigenComponent 1 Gates.projector_1] ->
  _unitary_ (__init__ cls (Concrete 1) 0)
  = Value [[(1, 0); (0, 0)]; [(0, 0); (-1, 0)]]%R
  /\ exists g',
       __pow__ (__init__ cls (Concrete 1) 0) (Concrete (1 # 2)) = Value g'
       /\ _unitary_ g' = Value [[(1, 0); (0, 0)]; [(0, 0); (0, 1)]]%R.
Proof.
  intros Hc. split.
  - unfold _unitary_. simpl. rewrite Hc. simpl.
    rewrite (pow_1j_0 (2 * 1 * (0 + 0))) by reflexivity.
    rewrite (pow_1j_2 (2 * 1 * (1 + 0))) by reflexivity.
    unfold ndarray_add, Cadd, Cmul, C_of_QComplex, Gates.real. simpl.
    rewrite RMicromega.Q2R_0, RMicromega.Q2R_1.
    repeat f_equal; lra.
  - eexists. split; [now apply pow_float|].
    unfold _unitary_. simpl. rewrite Hc. simpl.
    rewrite (pow_1j_0 (2 * (1 * (1 # 2)) * (0 + 0))) by reflexivity.
    rewrite (pow_1j_1 (2 * (1 * (1 # 2)) * (1 + 0))) by reflexivity.
    unfold ndarray_add, Cadd, Cmul, C_of_QComplex, Gates.real. simpl.
    rewrite RMicromega.Q2R_0, RMicromega.Q2R_1.
    repeat f_equal; lra.
Qed.

End Power.

(** ** The trace-distance bound *)
Section TraceDistance.

Context {T : Type} `{GT : GateTypes T}.

Implicit Types g : EigenGate T.

Lemma fold_min_spec (xs : list Q) : forall x : Q,
  is_min_of (x :: xs)
            (fold_left (fun m y => if Qlt_le_dec y m then y else m) xs x).
Proof.
  unfold is_min_of.
  induction xs as [|y xs IH]; intros x; simpl.
  - split; [now left|]. intros z [<- | []]. lra.
  - destruct (IH (if Qlt_le_dec y x then y else x)) as [Hin Hle].
    split.
    + destruct Hin as [Hm | Hm]; [|now right; right].
      rewrite <- Hm. destruct (Qlt_le_dec y x); [right; now left | now left].
    + intros z Hz.
      assert (Hx : fold_left (fun m y0 => if Qlt_le_dec y0 m then y0 else m) xs
                     (if Qlt_le_dec y x then y else x)
                   <= (if Qlt_le_dec y x then y else x)) by (apply Hle; now left).
      destruct Hz as [<- | [<- | Hz]].
      * destruct (Qlt_le_dec y x); lra.
      * destruct (Qlt_le_dec y x); lra.
      * apply Hle. now right.
Qed.

Lemma fold_max_spec (xs : list Q) : forall x : Q,
  is_max_of (x :: xs)
            (fold_left (fun m y => if Qlt_le_dec m y then y else m) xs x).
Proof.
  unfold is_max_of.
  induction xs as [|y xs IH]; intros x; simpl.
  - split; [now left|]. intros z [<- | []]. lra.
  - destruct (IH (if Qlt_le_dec x y then y else x)) as [Hin Hle].
    split.
    + destruct Hin as [Hm | Hm]; [|now right; right].
      rewrite <- Hm. destruct (Qlt_le_dec x y); [right; now left | now left].
    + intros z Hz.
      assert (Hx : (if Qlt_le_dec x y then y else x)
                   <= fold_left (fun m y0 => if Qlt_le_dec m y0 then y0 else m) xs
                        (if Qlt_le_dec x y then y else x)) by (apply Hle; now left).
      destruct Hz as [<- | [<- | Hz]].
      * destruct (Qlt_le_dec x y); lra.
      * destruct (Qlt_le_dec x y); lra.
      * apply Hle. now right.
Qed.

Lemma py_min_spec (l : list Q) :
  l <> [] -> exists m, py_min l = Some m /\ is_min_of l m.
Proof.
  destruct l as [|x xs]; [contradiction|]. intros _.
  eexists. split; [reflexivity | apply fold_min_spec].
Qed.

Lemma py_max_spec (l : list Q) :
  l <> [] -> exists m, py_max l = Some m /\ is_max_of l m.
Proof.
  destruct l as [|x xs]; [contradiction|]. intros _.
  eexists. split; [reflexivity | apply fold_max_spec].
Qed.

(** C9, amended.  The bound is 1 for a symbolic exponent; for a float
    exponent (and at least one eigen-component) it is
    |(max_angle - min_angle) * exponent * 3.5|, which is
    |max_angle - min_angle| * |exponent| * 3.5. *)
Theorem trace_distance_bound_value g :
  (is_Symbol (_exponent g) = true -> _trace_distance_bound_ g = Some 1)
  /\ (forall e : Q,
        _exponent g = Concrete e ->
        _eigen_components (type_of g) <> [] ->
        exists min_angle max_angle v,
          is_min_of (map eigenvalue_exponent_factor
                         (_eigen_components (type_of g))) min_angle
          /\ is_max_of (map eigenvalue_exponent_factor
                            (_eigen_components (type_of g))) max_angle
          /\ _trace_distance_bound_ g = Some v
          /\ v = Qabs ((max_angle - min_angle) * e * (7 # 2))
          /\ v == Qabs (max_angle - min_angle) * Qabs e * (7 # 2)).
Proof.
  split.
  - intros Hs. unfold _trace_distance_bound_. now rewrite Hs.
  - intros e He Hne.
    assert (Hl : map eigenvalue_exponent_factor (_eigen_components (type_of g)) <> [])
      by (destruct (_eigen_components (type_of g)); [contradiction | discriminate]).
    destruct (py_min_spec _ Hl) as [mn [Emn Hmn]].
    destruct (py_max_spec _ Hl) as [mx [Emx Hmx]].
    exists mn, mx, (Qabs ((mx - mn) * e * (7 # 2))).
    split; [exact Hmn|]. split; [exact Hmx|]. split; [|split; [reflexivity|]].
    + unfold _trace_distance_bound_. now rewrite He, Emn, Emx.
    + rewrite !Qabs_Qmult. reflexivity.
Qed.

End TraceDistance.

(** ** The statements at concrete gates *)

Import Gates.

(** C1, at a failing input.  The docstring of [_period] promises an
    exponent shifted into (-p/2, p/2]; for the Pauli Z decomposition
    (period 2) and exponent 1.5 the property answers 1.5, which lies
    outside (-1, 1], where the promised representative is -0.5. *)
Theorem canonical_exponent_not_centred :
  _period (gate ZGate (3 # 2)) = Some 2%Z
  /\ canonical_exponent_of (gate ZGate (3 # 2)) = Concrete (3 # 2)
  /\ ~ (- (inject_Z 2 / 2) < 3 # 2 /\ 3 # 2 <= inject_Z 2 / 2)
  /\ (- (inject_Z 2 / 2) < (3 # 2) - inject_Z 2
      /\ (3 # 2) - inject_Z 2 <= inject_Z 2 / 2).
Proof.
  split; [reflexivity|]. split; [reflexivity|]. split.
  - intros [_ H]. unfold Qle in H. simpl in H. lia.
  - unfold Qlt, Qle. simpl. lia.
Qed.

(** Counterexample to C2 as stated: a Pauli Z gate and an instance of
    its subclass have different concrete subtypes, yet [__eq__]
    answers the boolean [False], not [NotImplemented]. *)
Lemma eq_subclass_instance_not_sentinel :
  type_of (gate ZGate 1) <> type_of (gate SubZGate 1)
  /\ eq_answer (gate ZGate 1) (gate SubZGate 1) = Value false
  /\ eq_answer (gate ZGate 1) (gate SubZGate 1) <> NotImplemented.
Proof. split; [discriminate|]. split; [reflexivity | discriminate]. Qed.

(** [eq_identity_tuple] at a Pauli Z gate and an instance of its subclass. *)
Lemma eq_identity_tuple_witness :
  isinstance (gate SubZGate 1) (type_of (gate ZGate 1)) = true
  /\ exists b, eq_answer (gate ZGate 1) (gate SubZGate 1) = Value b
       /\ (type_of (gate SubZGate 1) <> type_of (gate ZGate 1) -> b = false).
Proof.
  split; [reflexivity|].
  apply (proj2 (proj2 (eq_identity_tuple (gate ZGate 1) (gate SubZGate 1)))).
  reflexivity.
Defined.

(** [eq_strict_subclass_is_False] at the same two gates. *)
Lemma eq_strict_subclass_is_False_witness :
  issubclass (type_of (gate SubZGate 1)) (type_of (gate ZGate 1)) = true
  /\ type_of (gate SubZGate 1) <> type_of (gate ZGate 1)
  /\ eq_answer (gate ZGate 1) (gate SubZGate 1) = Value false.
Proof.
  split; [reflexivity|]. split; [discriminate|].
  apply (proj1 (eq_strict_subclass_is_False (gate ZGate 1) (gate SubZGate 1)));
    [reflexivity | discriminate].
Defined.

(** Counterexample to C4 as stated: two instances of a class with the
    single eigen-angle 0, of one subtype and one rate, with exponents
    1 and 2: the period is 0, the canonical exponents stay 1 and 2 and
    the instances are not equal. *)
Lemma degenerate_gates_not_equal :
  (forall a, In a (shifted_angles (gate ScalarGate 1)) -> a == 0)
  /\ (forall a, In a (shifted_angles (gate ScalarGate 2)) -> a == 0)
  /\ _period (gate ScalarGate 1) = Some 0%Z
  /\ canonical_exponent_of (gate ScalarGate 1) = Concrete 1
  /\ canonical_exponent_of (gate ScalarGate 2) = Concrete 2
  /\ eq_answer (gate ScalarGate 1) (gate ScalarGate 2) = Value false.
Proof.
  split; [intros a [<- | []]; reflexivity|].
  split; [intros a [<- | []]; reflexivity|].
  repeat split.
Qed.

(** [degenerate_period_keeps_exponent] at the same two instances. *)
Lemma degenerate_period_keeps_exponent_witness :
  _period (gate ScalarGate 1) = Some 0%Z
  /\ canonical_exponent_of (gate ScalarGate 1) = _exponent (gate ScalarGate 1)
  /\ canonical_exponent_of (gate ScalarGate 2) = _exponent (gate ScalarGate 2)
  /\ (eq_answer (gate ScalarGate 1) (gate ScalarGate 2) = Value true
      <-> Exponent_eq (_exponent (gate ScalarGate 1)) (_exponent (gate ScalarGate 2))).
Proof.
  apply (degenerate_period_keeps_exponent (gate ScalarGate 1) (gate ScalarGate 2)).
  - exact I.
  - exact I.
  - intros a [<- | []]. reflexivity.
  - reflexivity.
  - reflexivity.
Defined.

(** [pow_scales_exponent] at a float and at a symbolic multiplier. *)
Lemma pow_scales_exponent_witness :
  (exists g', __pow__ (gate ZGate 1) (Concrete (1 # 2)) = Value g'
     /\ type_of g' = ZGate
     /\ _exponent g' = Concrete (1 * (1 # 2))
     /\ _global_negate_rate g' = 0
     /\ _canonical_exponent_cached g' = None)
  /\ __pow__ (gate ZGate 1) (Symbolic "t"%string) = NotImplemented.
Proof.
  split.
  - apply (proj1 (pow_scales_exponent (gate ZGate 1) (Concrete (1 # 2)))).
    reflexivity.
  - apply (proj1 (proj2 (pow_scales_exponent (gate ZGate 1) (Symbolic "t"%string)))).
    reflexivity.
Defined.

(** [pauli_z_unitary] at the class [ZGate]. *)
Lemma pauli_z_unitary_witness :
  _unitary_ (gate ZGate 1) = Value [[(1, 0); (0, 0)]; [(0, 0); (-1, 0)]]%R
  /\ exists g',
       __pow__ (gate ZGate 1) (Concrete (1 # 2)) = Value g'
       /\ _unitary_ g' = Value [[(1, 0); (0, 0)]; [(0, 0); (0, 1)]]%R.
Proof. apply (pauli_z_unitary ZGate). reflexivity. Defined.


(** Counterexample to C9 as stated: for the Pauli Z decomposition
    (angles 0 and 1) and exponent -1 the bound is 3.5, while
    |max_angle - min_angle| * exponent * 3.5 is -3.5. *)
Lemma trace_distance_bound_negative_exponent :
  py_min (map eigenvalue_exponent_factor (_eigen_components ZGate)) = Some 0
  /\ py_max (map eigenvalue_exponent_factor (_eigen_components ZGate)) = Some 1
  /\ _trace_distance_bound_ (gate ZGate (-1)) = Some (7 # 2)
  /\ ~ (7 # 2) == Qabs (1 - 0) * (-1) * (7 # 2).
Proof. repeat split. discriminate. Qed.

(** [trace_distance_bound_value] at a symbolic and at a negative exponent. *)
Lemma trace_distance_bound_value_witness :
  _trace_distance_bound_ (symbolic_gate ZGate "t"%string) = Some 1
  /\ exists min_angle max_angle v,
       is_min_of (map eigenvalue_exponent_factor (_eigen_components ZGate)) min_angle
       /\ is_max_of (map eigenvalue_exponent_factor (_eigen_components ZGate)) max_angle
       /\ _trace_distance_bound_ (gate ZGate (-1)) = Some v
       /\ v = Qabs ((max_angle - min_angle) * (-1) * (7 # 2))
       /\ v == Qabs (max_angle - min_angle) * Qabs (-1) * (7 # 2).
Proof.
  split.
  - apply (proj1 (trace_distance_bound_value (symbolic_gate ZGate "t"%string))).
    reflexivity.
  - apply (proj2 (trace_distance_bound_value (gate ZGate (-1))) (-1));
      [reflexivity | discriminate].
Defined.

(** ** Equality as a relation, [__ne__] and [__hash__] *)
Section EqualityLaws.

Context {T : Type} `{GT : GateTypes T}.

Implicit Types g h k : EigenGate T.

Lemma Exponent_eq_sym (a b : Exponent) : Exponent_eq a b -> Exponent_eq b a.
Proof. destruct a, b; simpl; intros E; try contradiction; now symmetry. Qed.

Lemma Exponent_eq_trans (a b c : Exponent) :
  Exponent_eq a b -> Exponent_eq b c -> Exponent_eq a c.
Proof.
  destruct a, b, c; simpl; intros E1 E2; try contradiction.
  - now rewrite E1.
  - congruence.
Qed.

Lemma eq_answer_true_iff g h :
  eq_answer g h = Value true <->
  type_of g = type_of h
  /\ Exponent_eq (canonical_exponent_of g) (canonical_exponent_of h)
  /\ _global_negate_rate g == _global_negate_rate h.
Proof.
  rewrite eq_answer_unfold.
  destruct (isinstance h (type_of g)) eqn:I; simpl.
  - rewrite <- tuple_eqb_true. unfold tuple_eqb. split; congruence.
  - split; [discriminate|]. intros [Ht _].
    unfold isinstance in I. rewrite Ht, issubclass_refl in I. discriminate.
Qed.

Lemma eq_answer_types_differ g h :
  type_of g <> type_of h -> eq_answer g h <> Value true.
Proof. intros Hne E. apply eq_answer_true_iff in E. tauto. Qed.

(** X1.  On the answer [True], [__eq__] is reflexive, symmetric and
    transitive. *)
Theorem eq_equivalence g h k :
  eq_answer g g = Value true
  /\ (eq_answer g h = Value true -> eq_answer h g = Value true)
  /\ (eq_answer g h = Value true -> eq_answer h k = Value true ->
      eq_answer g k = Value true).
Proof.
  rewrite !eq_answer_true_iff. split; [|split].
  - split; [reflexivity|]. split; [apply Exponent_eq_refl | reflexivity].
  - intros [Ht [He Hr]].
    split; [now symmetry|]. split; [now apply Exponent_eq_sym | now symmetry].
  - intros [Ht [He Hr]] [Ht' [He' Hr']].
    split; [congruence|].
    split; [now apply (Exponent_eq_trans _ _ _ He) | now rewrite Hr].
Qed.

(** The instances a call of [__eq__] hands back, and that nothing is
    touched when the answer is [NotImplemented]. *)
Lemma __eq___state g h :
  exists g' h', __eq__ g h = (eq_answer g h, g', h')
    /\ (eq_answer g h = NotImplemented -> g' = g /\ h' = h).
Proof.
  unfold eq_answer, __eq__, _identity_tuple.
  destruct (negb (isinstance h (type_of g))).
  - exists g, h. now split.
  - destruct (_canonical_exponent g) as [cg g'], (_canonical_exponent h) as [ch h'].
    exists g', h'. split; [reflexivity | discriminate].
Qed.

Lemma eq_answer_cases g h :
  type_of g <> type_of h ->
  eq_answer g h = Value false \/ eq_answer g h = NotImplemented.
Proof.
  intros Hne. pose proof (eq_answer_types_differ g h Hne) as Hn.
  destruct (eq_answer g h) as [[|]|]; [contradiction | now left | now right].
Qed.

(** X2.  [__ne__] answers [False] exactly for two operators of one
    concrete subtype with equal canonical exponents and equal shifts;
    whatever the two classes are it answers a boolean. *)
Theorem ne_identity_tuple g h :
  ne_answer g h = false <->
  type_of g = type_of h
  /\ Exponent_eq (canonical_exponent_of g) (canonical_exponent_of h)
  /\ _global_negate_rate g == _global_negate_rate h.
Proof.
  rewrite <- eq_answer_true_iff.
  unfold ne_answer, __ne__, richcompare_eq.
  destruct (negb (type_eqb (type_of g) (type_of h))
            && issubclass (type_of h) (type_of g)) eqn:Rev.
  - apply andb_true_iff in Rev. destruct Rev as [Hd _].
    assert (Hne : type_of g <> type_of h).
    { intros E. apply type_eqb_eq in E. rewrite E in Hd. discriminate. }
    assert (Hne' : type_of h <> type_of g) by congruence.
    pose proof (eq_answer_types_differ g h Hne) as Hn.
    destruct (__eq___state h g) as [h1 [g1 [E1 U1]]]. rewrite E1.
    destruct (eq_answer_cases h g Hne') as [A | A]; rewrite A in *; simpl.
    + split; [discriminate | intros B; contradiction].
    + destruct (U1 eq_refl) as [-> ->].
      destruct (__eq___state g h) as [g2 [h2 [E2 _]]]. rewrite E2.
      destruct (eq_answer_cases g h Hne) as [B | B]; rewrite B; simpl;
        split; discriminate.
  - destruct (__eq___state g h) as [g1 [h1 [E1 U1]]]. rewrite E1.
    destruct (eq_answer g h) as [b|] eqn:A; simpl.
    + destruct b; simpl; split; congruence.
    + destruct (U1 eq_refl) as [-> ->].
      assert (Hne' : type_of h <> type_of g).
      { intros E. rewrite eq_answer_unfold in A. unfold isinstance in A.
        rewrite E, issubclass_refl in A. discriminate. }
      destruct (__eq___state h g) as [h2 [g2 [E2 _]]]. rewrite E2.
      destruct (eq_answer_cases h g Hne') as [B | B]; rewrite B; simpl;
        split; discriminate.
Qed.

(** Reading the property once more changes nothing and answers the
    same. *)
Lemma _canonical_exponent_again g :
  _canonical_exponent (snd (_canonical_exponent g))
  = (fst (_canonical_exponent g), snd (_canonical_exponent g)).
Proof.
  unfold _canonical_exponent.
  destruct (_canonical_exponent_cached g) as [c|] eqn:E; simpl.
  - now rewrite E.
  - reflexivity.
Qed.

Lemma _canonical_exponent_fields g :
  type_of (snd (_canonical_exponent g)) = type_of g
  /\ _exponent (snd (_canonical_exponent g)) = _exponent g
  /\ _global_negate_rate (snd (_canonical_exponent g)) = _global_negate_rate g.
Proof.
  unfold _canonical_exponent.
  now destruct (_canonical_exponent_cached g).
Qed.

(** X3.  [__eq__] writes nothing but the memo fields, and asking again
    gives the same answer and leaves the two instances as they are. *)
Theorem eq_repeatable g h (r : OrNotImplemented bool) (g' h' : EigenGate T) :
  __eq__ g h = (r, g', h') ->
  (type_of g' = type_of g /\ _exponent g' = _exponent g
   /\ _global_negate_rate g' = _global_negate_rate g)
  /\ (type_of h' = type_of h /\ _exponent h' = _exponent h
      /\ _global_negate_rate h' = _global_negate_rate h)
  /\ __eq__ g' h' = (r, g', h').
Proof.
  unfold __eq__, _identity_tuple.
  destruct (negb (isinstance h (type_of g))) eqn:I.
  - intros E. injection E as <- <- <-. rewrite I. now repeat split.
  - pose proof (_canonical_exponent_again g) as Ag.
    pose proof (_canonical_exponent_again h) as Ah.
    pose proof (_canonical_exponent_fields g) as Fg.
    pose proof (_canonical_exponent_fields h) as Fh.
    destruct (_canonical_exponent g) as [cg g1], (_canonical_exponent h) as [ch h1].
    simpl in *. intros E. injection E as <- <- <-.
    destruct Fg as [Tg [Eg Rg]], Fh as [Th [Eh Rh]].
    split; [now repeat split|]. split; [now repeat split|].
    unfold isinstance in *. rewrite Tg, Th, I, Ag, Ah, Rg, Rh. reflexivity.
Qed.

Context `{HP : HashProtocol T}.

Lemma hash_Exponent_eq (a b : Exponent) :
  Exponent_eq a b -> hash_Exponent a = hash_Exponent b.
Proof.
  destruct a, b; simpl; intros E; try contradiction.
  - now apply hash_float_eq.
  - now subst.
Qed.

(** X4.  Operators that [__eq__] finds equal have the same [__hash__]. *)
Theorem hash_consistent g h :
  eq_answer g h = Value true -> hash_answer g = hash_answer h.
Proof.
  intros E. apply eq_answer_true_iff in E. destruct E as [Ht [He Hr]].
  unfold hash_answer, __hash__, _identity_tuple.
  unfold canonical_exponent_of in He.
  destruct (_canonical_exponent g) as [cg g'], (_canonical_exponent h) as [ch h'].
  simpl in *.
  now rewrite Ht, (hash_Exponent_eq _ _ He), (hash_float_eq _ _ Hr).
Qed.

End EqualityLaws.

(** ** When there is a matrix *)
Section UnitaryAvailable.

Context {T : Type} `{GT : GateTypes T}.

Implicit Types g h : EigenGate T.

Lemma unitary_reconstructed g (e : Q) :
  _exponent g = Concrete e ->
  _unitary_ g = Value (reconstructed (type_of g) (_global_negate_rate g) e).
Proof. intros He. unfold _unitary_, _is_parameterized_. now rewrite He. Qed.

Lemma unitary_symbolic g (s : Symbol) :
  _exponent g = Symbolic s -> _unitary_ g = NotImplemented.
Proof. intros He. unfold _unitary_, _is_parameterized_. now rewrite He. Qed.

(** X6.  [_has_unitary_] tells the truth about [_unitary_]: it is true
    exactly when [_unitary_] hands back a matrix, and false exactly
    when the gate is parameterized and [_unitary_] declines. *)
Theorem has_unitary_iff_unitary g :
  (_has_unitary_ g = true <-> exists m, _unitary_ g = Value m)
  /\ (_has_unitary_ g = false <-> _unitary_ g = NotImplemented)
  /\ (_is_parameterized_ g = true <-> _unitary_ g = NotImplemented).
Proof.
  unfold _has_unitary_, _is_parameterized_.
  destruct (_exponent g) as [e|s] eqn:He.
  - rewrite (unitary_reconstructed g e He). simpl.
    split; [|split]; split; try discriminate; try reflexivity.
    intros _. now eexists.
  - rewrite (unitary_symbolic g s He). simpl.
    split; [|split]; split; try discriminate; try reflexivity.
    intros [m Hm]. discriminate.
Qed.

End UnitaryAvailable.

(** ** The shape of the matrix, the global phase and the exponent 0 *)
Section UnitaryAlgebra.

Context {T : Type} `{GT : GateTypes T}.

Implicit Types g : EigenGate T.


Lemma Cmul_1_r (x : Complex) : Cmul x (1, 0)%R = x.
Proof. destruct x as [a b]. unfold Cmul. simpl. f_equal; ring. Qed.









Lemma scale_one (P : ndarray QComplex) : ndarray_scale P (1, 0)%R = embed P.
Proof.
  unfold ndarray_scale, embed. apply map_ext. intros row.
  apply map_ext. intros x. apply Cmul_1_r.
Qed.

(** X10.  At the exponent 0 the angles and the shift drop out: the
    matrix is the plain sum of the projectors. *)
Theorem unitary_exponent_zero g (e : Q) :
  _exponent g = Concrete e -> e == 0 ->
  _unitary_ g
  = Value (np_sum_axis0 (map (fun c => embed (eigenspace_projector c))
                             (_eigen_components (type_of g)))).
Proof.
  intros He Hz. rewrite (unitary_reconstructed g e He). f_equal.
  unfold reconstructed. f_equal. apply map_ext. intros c.
  rewrite <- scale_one. f_equal. apply pow_1j_0. rewrite Hz. ring.
Qed.

Lemma zip_with_length {A : Type} (op : A -> A -> A) (m : nat) :
  forall l1 l2, List.length l1 = m -> List.length l2 = m ->
  List.length (zip_with op l1 l2) = m.
Proof.
  induction m as [|m IH]; intros [|a l1] [|b l2] H1 H2; simpl in *;
    try discriminate; try reflexivity.
  f_equal. apply IH; congruence.
Qed.

Lemma has_shape_add (n m : nat) (a b : ndarray Complex) :
  has_shape n m a -> has_shape n m b -> has_shape n m (ndarray_add a b).
Proof.
  unfold has_shape, ndarray_add. intros [La Fa] [Lb Fb]. split.
  - now apply zip_with_length.
  - clear La Lb. revert b Fb.
    induction Fa as [|ra a Hra Fa IH]; intros b Fb; [constructor|].
    destruct Fb as [|rb b Hrb Fb]; simpl; [constructor|].
    constructor; [now apply zip_with_length | now apply IH].
Qed.

Lemma has_shape_scale (n m : nat) (P : ndarray QComplex) (z : Complex) :
  has_shape n m P -> has_shape n m (ndarray_scale P z).
Proof.
  unfold has_shape, ndarray_scale. intros [L F]. split.
  - now rewrite length_map.
  - apply Forall_map. eapply Forall_impl; [|exact F].
    intros row Hrow. simpl. now rewrite length_map.
Qed.

Lemma has_shape_fold (n m : nat) (ms : list (ndarray Complex)) : forall acc,
  has_shape n m acc -> Forall (has_shape n m) ms ->
  has_shape n m (fold_left ndarray_add ms acc).
Proof.
  induction ms as [|x ms IH]; intros acc Ha F; simpl; [exact Ha|].
  inversion F; subst. apply IH; [now apply has_shape_add | assumption].
Qed.

(** X11.  The matrix has the shape of the projectors: with at least
    one eigen-component and all projectors of [n] rows and [m] columns,
    [_unitary_] answers an array of [n] rows and [m] columns. *)
Theorem unitary_shape g (e : Q) (n m : nat) :
  _exponent g = Concrete e ->
  _eigen_components (type_of g) <> [] ->
  (forall c, In c (_eigen_components (type_of g)) ->
             has_shape n m (eigenspace_projector c)) ->
  exists M, _unitary_ g = Value M /\ has_shape n m M.
Proof.
  intros He Hne Hs. rewrite (unitary_reconstructed g e He).
  eexists. split; [reflexivity|]. unfold reconstructed.
  destruct (_eigen_components (type_of g)) as [|c cs]; [contradiction|].
  simpl. apply has_shape_fold.
  - apply has_shape_scale, Hs. now left.
  - apply Forall_map, Forall_forall. intros c' Hc'.
    apply has_shape_scale, Hs. now right.
Qed.

End UnitaryAlgebra.

(** ** Exponents as numbers: equality, the bound and resolution *)
Section ExponentArithmetic.

Context {T : Type} `{GT : GateTypes T} `{MP : MulProtocol}.

Implicit Types g h : EigenGate T.

Lemma py_mod_comp (x y : Q) (p : Z) : x == y -> py_mod x p == py_mod y p.
Proof.
  intros E. unfold py_mod.
  assert (F : Qfloor (x / inject_Z p) = Qfloor (y / inject_Z p))
    by (apply Qfloor_comp; now rewrite E).
  now rewrite F, E.
Qed.

Lemma eq_same_number g h (e e' : Q) :
  cache_valid g -> cache_valid h ->
  type_of h = type_of g ->
  _global_negate_rate h = _global_negate_rate g ->
  _exponent g = Concrete e -> _exponent h = Concrete e' -> e == e' ->
  eq_answer g h = Value true.
Proof.
  intros Vg Vh Ht Hr Eg Eh E. apply eq_answer_true_iff.
  rewrite (canonical_exponent_computed g Vg), (canonical_exponent_computed h Vh).
  rewrite Ht, Hr. split; [reflexivity|]. split; [|reflexivity].
  unfold compute_canonical_exponent.
  rewrite (_period_depends h g Ht Hr), Eg, Eh.
  destruct (_period g) as [p|]; simpl; [|exact E].
  destruct (p =? 0)%Z; simpl; [exact E | now apply py_mod_comp].
Qed.

(** X14.  The bound of a power: for float exponents the bound of
    [G ** x] is |x| times the bound of [G]. *)
Theorem trace_distance_bound_pow g (e x v : Q) :
  _exponent g = Concrete e ->
  _trace_distance_bound_ g = Some v ->
  exists g' v',
    __pow__ g (Concrete x) = Value g'
    /\ _trace_distance_bound_ g' = Some v'
    /\ v' == Qabs x * v.
Proof.
  intros He Hv. exists (_with_exponent g (Concrete (e * x))).
  unfold _trace_distance_bound_ in *.
  cbn [_with_exponent __init__ type_of _exponent is_Symbol].
  rewrite He in Hv. cbn [is_Symbol] in Hv.
  destruct (py_min _) as [mn|]; [|discriminate].
  destruct (py_max _) as [mx|]; [|discriminate].
  assert (Ev : v = Qabs ((mx - mn) * e * (7 # 2))) by congruence.
  eexists.
  split; [exact (pow_float g e x He)|]. split; [reflexivity|].
  rewrite Ev, !Qabs_Qmult. ring.
Qed.

(** X15.  The bound is never negative, and it is missing (the source
    raises on [min] of an empty list) exactly for a float exponent on a
    class without eigen-components. *)
Theorem trace_distance_bound_defined g :
  (_trace_distance_bound_ g = None <->
   is_Symbol (_exponent g) = false /\ _eigen_components (type_of g) = [])
  /\ (forall v, _trace_distance_bound_ g = Some v -> 0 <= v).
Proof.
  unfold _trace_distance_bound_.
  destruct (_exponent g) as [e|s]; cbn [is_Symbol].
  - destruct (_eigen_components (type_of g)) as [|c cs]; cbn [map py_min py_max].
    + split; [now split | discriminate].
    + split.
      * split; [discriminate | intros [_ Hc]; discriminate].
      * intros v Hv.
        match type of Hv with
        | Some ?q = Some _ => assert (Ev : v = q) by congruence
        end.
        rewrite Ev. apply Qabs_nonneg.
  - split.
    + split; [discriminate | intros [Hc _]; discriminate].
    + intros v Hv. assert (Ev : v = 1) by congruence.
      rewrite Ev. unfold Qle. simpl. lia.
Qed.

(** X16.  Resolving parameters is constructing anew: whatever the memo
    field of the gate holds, the resolved gate is equal to, and has the
    matrix of, a gate of the same class and shift built with the
    resolved value. *)
Theorem resolve_parameters_as_constructed g h
    (value_of : Exponent -> Exponent) (v : Q) :
  value_of (_exponent g) = Concrete v ->
  cache_valid h ->
  type_of h = type_of g ->
  _global_negate_rate h = _global_negate_rate g ->
  _exponent h = Concrete v ->
  eq_answer (_resolve_parameters_ g value_of) h = Value true
  /\ _has_unitary_ (_resolve_parameters_ g value_of) = true
  /\ _unitary_ (_resolve_parameters_ g value_of) = _unitary_ h.
Proof.
  intros Hv Vh Ht Hr Eh. unfold _resolve_parameters_. rewrite Hv.
  split; [|split].
  - apply (eq_same_number (_with_exponent g (Concrete v)) h v v I Vh);
      try assumption; reflexivity.
  - reflexivity.
  - unfold _unitary_, _is_parameterized_. rewrite Eh, Ht, Hr. reflexivity.
Qed.

End ExponentArithmetic.

(** ** The further statements at concrete gates *)

(** [eq_equivalence] at Pauli Z gates with exponents 0.5, 2.5 and 4.5. *)
Lemma eq_equivalence_witness :
  eq_answer (gate ZGate (1 # 2)) (gate ZGate (5 # 2)) = Value true
  /\ eq_answer (gate ZGate (5 # 2)) (gate ZGate (9 # 2)) = Value true
  /\ eq_answer (gate ZGate (1 # 2)) (gate ZGate (1 # 2)) = Value true
  /\ eq_answer (gate ZGate (5 # 2)) (gate ZGate (1 # 2)) = Value true
  /\ eq_answer (gate ZGate (1 # 2)) (gate ZGate (9 # 2)) = Value true.
Proof.
  destruct (eq_equivalence (gate ZGate (1 # 2)) (gate ZGate (5 # 2))
                           (gate ZGate (9 # 2))) as [R [S Tr]].
  split; [reflexivity|]. split; [reflexivity|]. split; [exact R|].
  split; [apply S; reflexivity | apply Tr; reflexivity].
Defined.

(** [eq_repeatable] at two equal Pauli Z gates. *)
Lemma eq_repeatable_witness :
  __eq__ (snd (fst (__eq__ (gate ZGate (1 # 2)) (gate ZGate (5 # 2)))))
         (snd (__eq__ (gate ZGate (1 # 2)) (gate ZGate (5 # 2))))
  = (Value true,
     snd (fst (__eq__ (gate ZGate (1 # 2)) (gate ZGate (5 # 2)))),
     snd (__eq__ (gate ZGate (1 # 2)) (gate ZGate (5 # 2)))).
Proof.
  apply (eq_repeatable (gate ZGate (1 # 2)) (gate ZGate (5 # 2)) (Value true)
           (snd (fst (__eq__ (gate ZGate (1 # 2)) (gate ZGate (5 # 2)))))
           (snd (__eq__ (gate ZGate (1 # 2)) (gate ZGate (5 # 2))))).
  reflexivity.
Defined.

(** [hash_consistent] at the same two gates. *)
Lemma hash_consistent_witness :
  eq_answer (gate ZGate (1 # 2)) (gate ZGate (5 # 2)) = Value true
  /\ hash_answer (gate ZGate (1 # 2)) = hash_answer (gate ZGate (5 # 2)).
Proof.
  split; [reflexivity|].
  apply (hash_consistent (gate ZGate (1 # 2)) (gate ZGate (5 # 2))). reflexivity.
Defined.

(** [unitary_exponent_zero] at a Pauli Z gate with exponent 0. *)
Lemma unitary_exponent_zero_witness :
  _unitary_ (gate ZGate 0)
  = Value (np_sum_axis0 (map (fun c => embed (eigenspace_projector c))
                             (_eigen_components ZGate))).
Proof.
  apply (unitary_exponent_zero (gate ZGate 0) 0); reflexivity.
Defined.

(** [unitary_shape] at a Pauli Z gate: two rows, two columns. *)
Lemma unitary_shape_witness :
  exists M, _unitary_ (gate ZGate 1) = Value M /\ has_shape 2 2 M.
Proof.
  apply (unitary_shape (gate ZGate 1) 1 2 2).
  - reflexivity.
  - discriminate.
  - intros c [<- | [<- | []]]; split; try reflexivity; repeat constructor.
Defined.

(** [trace_distance_bound_pow] at a Pauli Z gate raised to the power -2. *)
Lemma trace_distance_bound_pow_witness :
  _trace_distance_bound_ (gate ZGate 1) = Some (7 # 2)
  /\ exists g' v',
       __pow__ (gate ZGate 1) (Concrete (- (2))) = Value g'
       /\ _trace_distance_bound_ g' = Some v'
       /\ v' == Qabs (- (2)) * (7 # 2).
Proof.
  split; [reflexivity|].
  apply (trace_distance_bound_pow (gate ZGate 1) 1 (- (2)) (7 # 2)); reflexivity.
Defined.

(** [trace_distance_bound_defined] at a Pauli Z gate with exponent -1. *)
Lemma trace_distance_bound_defined_witness :
  _trace_distance_bound_ (gate ZGate (-1)) = Some (7 # 2) /\ 0 <= 7 # 2.
Proof.
  split; [reflexivity|].
  apply (proj2 (trace_distance_bound_defined (gate ZGate (-1))) (7 # 2)).
  reflexivity.
Defined.

(** [resolve_parameters_as_constructed] at a symbolic Pauli Z gate and a
    resolver that answers 0.5. *)
Lemma resolve_parameters_as_constructed_witness :
  eq_answer (_resolve_parameters_ (symbolic_gate ZGate "t"%string)
                                  (fun _ => Concrete (1 # 2)))
            (gate ZGate (1 # 2)) = Value true
  /\ _has_unitary_ (_resolve_parameters_ (symbolic_gate ZGate "t"%string)
                                         (fun _ => Concrete (1 # 2))) = true
  /\ _unitary_ (_resolve_parameters_ (symbolic_gate ZGate "t"%string)
                                     (fun _ => Concrete (1 # 2)))
     = _unitary_ (gate ZGate (1 # 2)).
Proof.
  apply (resolve_parameters_as_constructed
           (symbolic_gate ZGate "t"%string) (gate ZGate (1 # 2))
           (fun _ => Concrete (1 # 2)) (1 # 2));
    first [reflexivity | exact I].
Defined.

(** ** The period and the canonical exponent in machine arithmetic *)

Import LongPeriods.

(** C3, at a failing input.  For the eigen-angles 2/4294967297 and
    2/4294967299 (as doubles, shift 0) both candidates are integers,
    4294967297 and 4294967299, so the period ought to be their least
    common multiple 18446744090889420803; [np.lcm.reduce] computes it
    in 64 bits and [_period] returns 17179869187, which neither
    candidate divides. *)
Theorem period_wraps_in_int64 :
  Binary64.int_periods (Binary64.real_periods (Binary64.gate LongGate 1))
  = Binary64.Returns [4294967297; 4294967299]%Z
  /\ Binary64._period (Binary64.gate LongGate 1)
     = Binary64.Returns (Some 17179869187%Z)
  /\ is_lcm_of [4294967297; 4294967299]%Z 18446744090889420803%Z
  /\ ~ is_lcm_of [4294967297; 4294967299]%Z 17179869187%Z.
Proof.
  split; [vm_compute; reflexivity|]. split; [vm_compute; reflexivity|]. split.
  - split; [reflexivity|]. split.
    + repeat constructor; apply Z.mod_divide; (discriminate || reflexivity).
    + intros k Hk. inversion Hk as [|? ? Ha Hk']; subst.
      inversion Hk' as [|? ? Hb _]; subst.
      replace 18446744090889420803%Z with (Z.lcm 4294967297 4294967299)
        by (vm_compute; reflexivity).
      now apply Z.lcm_least.
  - intros [_ [F _]]. inversion F as [|? ? Hd _]; subst.
    apply Z.mod_divide in Hd; [|discriminate].
    vm_compute in Hd. discriminate.
Qed.

(** C8, at a failing input.  For the Pauli Z decomposition (period 2)
    and the exponent -2^-60 the float remainder is 2.0, and
    canonicalizing 2.0 gives 0.0: the canonical exponent is not left
    unchanged.  The exponent shifted by the period, -2^-60 + 2, is the
    double 2.0, and the two instances are not equal; nor are the
    instances with exponents 0.1 and 0.1 + 2. *)
Theorem canonical_exponent_not_stable :
  Binary64._period (Binary64.gate ZGate (- 1 # 2 ^ 60))
  = Binary64.Returns (Some 2%Z)
  /\ Binary64.canonical_exponent_of (Binary64.gate ZGate (- 1 # 2 ^ 60))
     = Binary64.Returns (Binary64.Concrete 2%float)
  /\ Binary64.canonical_exponent_of (Binary64.gate ZGate 2)
     = Binary64.Returns (Binary64.Concrete 0%float)
  /\ PrimFloat.add (Binary64.float_of_Q (- 1 # 2 ^ 60)) (Binary64.float_of_Q 2)
     = Binary64.float_of_Q 2
  /\ Binary64.eq_answer (Binary64.gate ZGate (- 1 # 2 ^ 60))
                        (Binary64.gate ZGate 2)
     = Binary64.Returns (Value false)
  /\ PrimFloat.add (Binary64.float_of_Q (1 # 10)) (Binary64.float_of_Q 2)
     = Binary64.float_of_Q (21 # 10)
  /\ Binary64.eq_answer (Binary64.gate ZGate (1 # 10))
                        (Binary64.gate ZGate (21 # 10))
     = Binary64.Returns (Value false).
Proof. repeat split; vm_compute; reflexivity. Qed.
